(** * MovieMate: the recommendation lookup and the metadata client of [app.py]

    A shallow embedding of the two functions of [src/app.py],
    [fetch_movie_details] and [recommend], together with the Python
    built-ins they rely on ([dict.get], [round], truthiness, tuple
    comparison, [sorted(..., reverse=True)], slicing).

    Conventions of the model:
    - a Python value is a [pyval]; a [dict] with string keys is a
      [gmap string pyval];
    - a Python [float] is represented by the rational number it denotes
      (NaN and the infinities are left out); [round(x, 1)] is correctly
      rounded in CPython (half-to-even on the exact value) and its result
      is represented by the decimal [t/10] it denotes;
    - the catalog [movies_list] is a DataFrame with the default
      [RangeIndex], so that the label returned by [.index[0]] is the row
      position used by [.iloc];
    - the effects of the code (the HTTP request, [st.warning], [st.error])
      are recorded in a chronological log; what the HTTP session answers
      (after its own retries) is given by an oracle [upstream] that may
      depend on the whole history. *)

From Stdlib Require Import QArith Qabs.
From stdpp Require Import gmap strings list fin_maps pretty.

#[local] Set Warnings "-register-all".
#[local] Open Scope Z_scope.

(** ** Python values *)

Inductive pyval :=
| PNone
| PBool (b : bool)
| PInt (z : Z)
| PFloat (q : Q)
| PStr (s : string)
| PList (l : list pyval)
| PDict (d : gmap string pyval).

(** [bool(v)]: None, False, zero, and empty containers are falsy. *)
Definition truthy (v : pyval) : bool :=
  match v with
  | PNone => false
  | PBool b => b
  | PInt z => negb (z =? 0)
  | PFloat q => negb (Qeq_bool q 0)
  | PStr s => negb (String.eqb s "")
  | PList l => match l with [] => false | _ => true end
  | PDict d => match map_to_list d with [] => false | _ => true end
  end.

(** ** Exceptions *)

(** The subclasses of [requests.exceptions.RequestException] the code can
    meet: the transport's failures, [HTTPError] from [raise_for_status] and
    [JSONDecodeError] from [response.json()] (a RequestException since
    requests 2.27). *)
Inductive request_exception :=
| ConnectionError
| Timeout
| RetryError
| HTTPError (status : Z)
| JSONDecodeError.

Inductive exn :=
| RequestException (e : request_exception)
| TypeError
| AttributeError
| IndexError.

(** ** Built-ins *)

(** [data.get(k, default)]; only a dict has the method. *)
Definition py_get (data : pyval) (k : string) (dflt : pyval) : exn + pyval :=
  match data with
  | PDict d => inr (default dflt (d !! k))
  | _ => inl AttributeError
  end.

(** [a + b] where [a] is a str. *)
Definition py_str_add (a : string) (b : pyval) : exn + pyval :=
  match b with
  | PStr s => inr (PStr (a +:+ s))
  | _ => inl TypeError
  end.

(** The number of tenths nearest to [q], ties going to the even one. *)
Definition round_half_even_tenths (q : Q) : Z :=
  let n := 10 * Qnum q in
  let d := Zpos (Qden q) in
  let t := n / d in
  let r := n mod d in
  match 2 * r ?= d with
  | Lt => t
  | Gt => t + 1
  | Eq => if Z.even t then t else t + 1
  end.

(** [round(v, 1)]: an int is returned unchanged (a bool as an int), a float
    is rounded to one decimal, anything else has no [__round__]. *)
Definition py_round1 (v : pyval) : exn + pyval :=
  match v with
  | PInt z => inr (PInt z)
  | PBool b => inr (PInt (Z.b2z b))
  | PFloat q => inr (PFloat (round_half_even_tenths q # 10))
  | _ => inl TypeError
  end.

(** ** Tuples [(index, score)], [sorted] and slices *)

(** [a < b] on 2-tuples: the first differing component decides. *)
Definition tuple_lt (a b : nat * Q) : bool :=
  if negb (Nat.eqb a.1 b.1) then Nat.ltb a.1 b.1
  else if negb (Qeq_bool a.2 b.2) then negb (Qle_bool b.2 a.2)
  else false.

(** A stable ascending sort that, like [list.sort], only asks [<]. *)
Fixpoint insert_sorted {A} (lt : A → A → bool) (x : A) (l : list A) : list A :=
  match l with
  | [] => [x]
  | y :: l' => if lt y x then y :: insert_sorted lt x l' else x :: y :: l'
  end.

Fixpoint stable_sort {A} (lt : A → A → bool) (l : list A) : list A :=
  match l with
  | [] => []
  | x :: l' => insert_sorted lt x (stable_sort lt l')
  end.

(** [sorted(l, reverse=True)]: CPython reverses the list, sorts it stably
    and reverses the result, which keeps equal elements in their order. *)
Definition sorted_reverse {A} (lt : A → A → bool) (l : list A) : list A :=
  reverse (stable_sort lt (reverse l)).

(** [list(enumerate(l))] *)
Definition enumerate {A} (l : list A) : list (nat * A) := imap pair l.

(** [l[i:j]] for [0 <= i <= j] *)
Definition py_slice {A} (i j : nat) (l : list A) : list A :=
  take (j - i) (drop i l).

(** ** The catalog and the transport *)

Record Row := { movie_id : Z; title : string }.

Record Response := { status_code : Z; json_body : option pyval }.

(** What [http.get] gives back once the session's retry policy
    ([Retry(total=3, backoff_factor=1, status_forcelist=[500,502,503,504])])
    is done: a raised request exception or a response. *)
Inductive transport_result :=
| Raised (e : request_exception)
| Responded (r : Response).

Inductive event :=
| HttpGet (url : string) (headers : list (string * string))
| StWarning (movie : Z) (e : request_exception)
| StError (e : exn).

(** ** Computations: a log of effects and an exception channel *)

Definition M (A : Type) : Type := list event → (exn + A) * list event.

Definition ret {A} (a : A) : M A := λ w, (inr a, w).
Definition raise {A} (e : exn) : M A := λ w, (inl e, w).
Definition bind {A B} (c : M A) (k : A → M B) : M B :=
  λ w, match c w with
       | (inr a, w') => k a w'
       | (inl e, w') => (inl e, w')
       end.
Definition lift {A} (r : exn + A) : M A :=
  match r with inl e => raise e | inr a => ret a end.
Definition of_option {A} (e : exn) (o : option A) : M A :=
  match o with Some a => ret a | None => raise e end.
Definition log (ev : event) : M unit := λ w, (inr tt, w ++ [ev]).

(** [try: c  except requests.exceptions.RequestException as e: h e] *)
Definition try_except_request {A} (c : M A) (h : request_exception → M A) : M A :=
  λ w, match c w with
       | (inl (RequestException e), w') => h e w'
       | r => r
       end.

Notation "'let*' x ':=' c 'in' k" := (bind c (λ x, k))
  (at level 10, x name, c at level 100, k at level 200).

(** ** The snapshots *)

Definition snapshot (poster overview release_date rating runtime : pyval)
  : gmap string pyval :=
  <["poster_path" := poster]> (<["overview" := overview]>
  (<["release_date" := release_date]> (<["rating" := rating]>
  (<["runtime" := runtime]> ∅)))).

Definition image_base : string := "https://image.tmdb.org/t/p/w500/".
Definition no_image_url : string :=
  "https://via.placeholder.com/500x750?text=No+Image+Available".
Definition no_api_key_url : string :=
  "https://via.placeholder.com/500x750?text=No+API+Key".

Definition no_api_key_snapshot : gmap string pyval :=
  snapshot (PStr no_api_key_url) (PStr "API key not configured")
           (PStr "Unknown") (PFloat 0) (PStr "N/A").

Definition network_failure_snapshot : gmap string pyval :=
  snapshot (PStr no_image_url) (PStr "Unable to fetch movie details")
           (PStr "Unknown") (PFloat 0) (PStr "N/A").

Definition snapshot_keys : gset string :=
  {[ "poster_path"; "overview"; "release_date"; "rating"; "runtime" ]}.

(** [response.raise_for_status()] raises for 4xx and 5xx. *)
Definition raise_for_status (r : Response) : M unit :=
  if (400 <=? status_code r) && (status_code r <? 600)
  then raise (RequestException (HTTPError (status_code r)))
  else ret tt.

(** [response.json()] *)
Definition response_json (r : Response) : M pyval :=
  of_option (RequestException JSONDecodeError) (json_body r).

(** The body of the [try] of [fetch_movie_details] after [data] is read:
    lines 68 to 77. *)
Definition details_of_data (data : pyval) : exn + gmap string pyval :=
  match py_get data "poster_path" PNone with
  | inl e => inl e
  | inr poster_path =>
    match (if truthy poster_path then py_str_add image_base poster_path
           else inr (PStr no_image_url)) with
    | inl e => inl e
    | inr poster_url =>
      match py_get data "overview" (PStr "No overview available") with
      | inl e => inl e
      | inr overview =>
        match py_get data "release_date" (PStr "Release date unknown") with
        | inl e => inl e
        | inr release_date =>
          match py_get data "vote_average" (PInt 0) with
          | inl e => inl e
          | inr vote_average =>
            match py_round1 vote_average with
            | inl e => inl e
            | inr rating =>
              match py_get data "runtime" (PStr "N/A") with
              | inl e => inl e
              | inr runtime =>
                inr (snapshot poster_url overview release_date rating runtime)
              end
            end
          end
        end
      end
    end
  end.

Section App.

(** The module's globals, and the answers of the metadata service. *)
Variable api_key : option string.
Variable movies_list : list Row.
Variable similarity : list (list Q).
Variable upstream : list event → string → transport_result.

(** [not api_key]: the key is None or the empty string. *)
Definition api_key_missing : bool :=
  match api_key with
  | None => true
  | Some k => String.eqb k ""
  end.

Definition key_text : string := default "" api_key.

Definition details_url (movie : Z) : string :=
  "https://api.themoviedb.org/3/movie/" +:+ pretty movie
    +:+ "?api_key=" +:+ key_text.

Definition request_headers : list (string * string) :=
  [("Accept", "application/json"); ("Authorization", "Bearer " +:+ key_text)].

(** [http.get(url, headers=headers, timeout=10)] *)
Definition http_get (url : string) (headers : list (string * string))
  : M Response :=
  λ w, match upstream w url with
       | Raised e => (inl (RequestException e), w ++ [HttpGet url headers])
       | Responded r => (inr r, w ++ [HttpGet url headers])
       end.

Definition fetch_movie_details (movie : Z) : M (gmap string pyval) :=
  if api_key_missing then ret no_api_key_snapshot
  else
    try_except_request
      (let* response := http_get (details_url movie) request_headers in
       let* _ := raise_for_status response in
       let* data := response_json response in
       lift (details_of_data data))
      (λ e, let* _ := log (StWarning movie e) in
            ret network_failure_snapshot).

(** [movies_list[movies_list['title'] == movie].index[0]] *)
Definition title_index (movie : string) : M nat :=
  of_option IndexError
    (fst <$> list_find (λ r, title r = movie) movies_list).

(** Line 92: the pairs [recommend] goes through. *)
Definition neighbours (distances : list Q) : list (nat * Q) :=
  py_slice 1 6 (sorted_reverse tuple_lt (enumerate distances)).

(** The [for] loop of lines 97 to 100, with the two lists it appends to. *)
Fixpoint recommend_loop (recs : list (nat * Q)) (names : list string)
    (details : list (gmap string pyval))
  : M (list string * list (gmap string pyval)) :=
  match recs with
  | [] => ret (names, details)
  | i :: rest =>
    let* row := of_option IndexError (movies_list !! i.1) in
    let* d := fetch_movie_details (movie_id row) in
    recommend_loop rest (names ++ [title row]) (details ++ [d])
  end.

Definition recommend_body (movie : string)
  : M (list string * list (gmap string pyval)) :=
  let* movie_index := title_index movie in
  let* distances := of_option IndexError (similarity !! movie_index) in
  recommend_loop (neighbours distances) [] [].

(** [recommend]: any exception of the body is reported with [st.error] and
    turned into two empty lists. *)
Definition recommend (movie : string)
  : list event → (list string * list (gmap string pyval)) * list event :=
  λ w, match recommend_body movie w with
       | (inr r, w') => (r, w')
       | (inl e, w') => (([], []), w' ++ [StError e])
       end.

End App.

(** ** The ordering the specification describes *)

(** Modelled on the specification's words, to be compared with
    [neighbours]: pairs ordered by score descending, ties by index
    descending; the first ranked entry dropped, the next five kept. *)
Definition score_lt (a b : nat * Q) : bool :=
  if negb (Qeq_bool a.2 b.2) then negb (Qle_bool b.2 a.2)
  else Nat.ltb a.1 b.1.

Definition neighbours_by_score (distances : list Q) : list (nat * Q) :=
  py_slice 1 6 (reverse (stable_sort score_lt (enumerate distances))).

(** ** The scenario of the specification *)

Definition catalog6 : list Row :=
  [ {| movie_id := 10; title := "A" |}; {| movie_id := 11; title := "B" |};
    {| movie_id := 12; title := "C" |}; {| movie_id := 13; title := "D" |};
    {| movie_id := 14; title := "E" |}; {| movie_id := 15; title := "F" |} ].

(** The scores are written as decimals; the doubles nearest to them are in
    the same order. *)
Definition rowA : list Q := [1; 9 # 10; 8 # 10; 7 # 10; 6 # 10; 5 # 10]%Q.

(** A matrix whose first row is the scenario's; every row has its own
    entry at [1.0], the others are decreasing in the distance. *)
Definition matrix6 : list (list Q) :=
  [ rowA;
    [9 # 10; 1; 9 # 10; 8 # 10; 7 # 10; 6 # 10];
    [8 # 10; 9 # 10; 1; 9 # 10; 8 # 10; 7 # 10];
    [7 # 10; 8 # 10; 9 # 10; 1; 9 # 10; 8 # 10];
    [6 # 10; 7 # 10; 8 # 10; 9 # 10; 1; 9 # 10];
    [5 # 10; 6 # 10; 7 # 10; 8 # 10; 9 # 10; 1] ]%Q.

Definition offline : list event → string → transport_result :=
  λ _ _, Raised ConnectionError.

(** A catalog of two entries and a metadata service that answers 200 with
    the body [{"vote_average": null}]. *)
Definition catalog2 : list Row :=
  [ {| movie_id := 10; title := "A" |}; {| movie_id := 11; title := "B" |} ].

Definition matrix2 : list (list Q) := [ [1; 5 # 10]; [5 # 10; 1] ]%Q.

Definition respond_with (body : gmap string pyval)
  : list event → string → transport_result :=
  λ _ _, Responded {| status_code := 200; json_body := Some (PDict body) |}.

Definition null_rating : gmap string pyval := {[ "vote_average" := PNone ]}.

(** ** Predicates used in the statements *)

(** The number a Python value denotes, if it is one. *)
Definition pynum (v : pyval) : option Q :=
  match v with
  | PInt z => Some (inject_Z z)
  | PBool b => Some (inject_Z (Z.b2z b))
  | PFloat q => Some q
  | _ => None
  end.

Definition is_str (v : pyval) : bool :=
  match v with PStr _ => true | _ => false end.

(** A decoded body on which lines 68 to 77 go through: a JSON object whose
    poster path is falsy or a string and whose rating is absent or a
    number. *)
Definition body_ok (data : pyval) : bool :=
  match data with
  | PDict d =>
    (negb (truthy (default PNone (d !! "poster_path")))
     || is_str (default PNone (d !! "poster_path")))
    && bool_decide (is_Some (pynum (default (PInt 0) (d !! "vote_average"))))
  | _ => false
  end.

Definition http_error_status (r : Response) : bool :=
  (400 <=? status_code r) && (status_code r <? 600).

(** The request failed at the transport level: the session raised, the
    final status is 4xx or 5xx, or the body is not JSON. *)
Definition transport_failed (res : transport_result) : bool :=
  match res with
  | Raised _ => true
  | Responded r => http_error_status r || bool_decide (json_body r = None)
  end.

Definition response_ok (res : transport_result) : bool :=
  match res with
  | Raised _ => true
  | Responded r =>
    http_error_status r ||
    match json_body r with None => true | Some data => body_ok data end
  end.

Definition upstream_ok (upstream : list event → string → transport_result)
  : Prop :=
  ∀ w url, response_ok (upstream w url) = true.


(** The titles of the rows a list of pairs points to. *)
Definition titles_of (movies_list : list Row) (recs : list (nat * Q))
  : list string :=
  omap (λ p : nat * Q, title <$> movies_list !! p.1) recs.

(** The claim of the specification on the size of the result. *)
Definition returns_min5 (api_key : option string) (movies_list : list Row)
    (similarity : list (list Q))
    (upstream : list event → string → transport_result)
    (movie : string) (w : list event) : Prop :=
  let r := (recommend api_key movies_list similarity upstream movie w).1 in
  length r.1 = (5 `min` (length movies_list - 1))%nat
  ∧ length r.2 = (5 `min` (length movies_list - 1))%nat.

(** The field mapping of a decoded body, case by case: the poster is the
    placeholder unless the path is a non-empty string; the rating is 0
    when absent and rounded to one decimal when it is a number. *)
Definition mapped_poster (o : option pyval) : pyval :=
  match o with
  | Some (PStr s) =>
    if String.eqb s "" then PStr no_image_url else PStr (image_base +:+ s)
  | _ => PStr no_image_url
  end.

Definition mapped_rating (o : option pyval) : pyval :=
  match o with
  | None => PInt 0
  | Some (PFloat q) => PFloat (round_half_even_tenths q # 10)
  | Some (PBool b) => PInt (Z.b2z b)
  | Some v => v
  end.

(** The doubles that the JSON literals 7.666, 11.26 and 8.2 decode to. *)
Definition double_7_666 : Q := 2157787171463889 # 281474976710656.
Definition double_8_2 : Q := 2308094809027379 # 281474976710656.

(** The body of the specification's scenario,
    [{"poster_path": null, "vote_average": 7.666}], and others. *)
Definition scenario_body : gmap string pyval :=
  <["poster_path" := PNone]> {[ "vote_average" := PFloat double_7_666 ]}.

Definition empty_poster_body : gmap string pyval :=
  {[ "poster_path" := PStr "" ]}.


Definition full_body : gmap string pyval :=
  <["poster_path" := PStr "/p.jpg"]> (<["overview" := PStr "A film."]>
  (<["release_date" := PStr "1999-03-31"]> (<["vote_average" := PFloat double_8_2]>
  {[ "runtime" := PInt 136 ]}))).

(** ** The rest of the script: start-up, selection and rendering *)

(** Lines 38 to 42: the key comes from the secrets when they have the entry,
    otherwise from the environment after [load_dotenv()], which adds the
    entries of the [.env] file that the environment does not have yet. *)
Definition resolve_api_key (secrets environ dotenv_file : gmap string string)
  : option string :=
  match secrets !! "TMDB_API_KEY" with
  | Some k => Some k
  | None => (environ ∪ dotenv_file) !! "TMDB_API_KEY"
  end.

(** What the page shows. The texts built from arbitrary values with
    f-strings are kept as the values they are built from. *)
Inductive markdown :=
| MdHeading (name : string)
| MdFacts (release_date rating runtime : pyval)
| MdOverview (snippet : pyval)
| MdRule.

Inductive ui_event :=
| UiTitle (text : string)
| UiError (text : string)
| UiSelectbox (label : string) (options : list string)
| UiButton (label : string)
| UiSpinner (text : string)
| Core (ev : event)
| UiColumns
| UiImage (src : pyval) (width : Z)
| UiMarkdown (m : markdown).

(** A run of the script ends normally, at [st.stop()], or with an
    exception nobody catches. *)
Inductive outcome (A : Type) :=
| Returned (a : A)
| Stopped
| Crashed.
Arguments Returned {A} a.
Arguments Stopped {A}.
Arguments Crashed {A}.

Definition U (A : Type) : Type := list ui_event → outcome A * list ui_event.

Definition uret {A} (a : A) : U A := λ u, (Returned a, u).
Definition ubind {A B} (c : U A) (k : A → U B) : U B :=
  λ u, match c u with
       | (Returned a, u') => k a u'
       | (Stopped, u') => (Stopped, u')
       | (Crashed, u') => (Crashed, u')
       end.
Definition emit (ev : ui_event) : U unit := λ u, (Returned tt, u ++ [ev]).
Definition st_stop {A} : U A := λ u, (Stopped, u).
(** [o] is the result of an indexing that raises when there is none. *)
Definition indexed {A} (o : option A) : U A :=
  λ u, match o with Some a => (Returned a, u) | None => (Crashed, u) end.

Notation "'let!' x ':=' c 'in' k" := (ubind c (λ x, k))
  (at level 10, x name, c at level 100, k at level 200).

(** [v[:200]]: the first 200 characters of a str (a string of the model is
    its sequence of characters), the first 200 items of a list; the other
    values cannot be sliced. *)
Definition py_take200 (v : pyval) : option pyval :=
  match v with
  | PStr s => Some (PStr (String.substring 0 200 s))
  | PList l => Some (PList (take 200 l))
  | _ => None
  end.

(** The body of the [for] loop of lines 118 to 133, for one [i]. *)
Definition render_entry (names : list string)
    (details : list (gmap string pyval)) (i : nat) : U unit :=
  let! _ := emit UiColumns in
  let! d := indexed (details !! i) in
  let! poster := indexed (d !! "poster_path") in
  let! _ := emit (UiImage poster 170) in
  let! name := indexed (names !! i) in
  let! _ := emit (UiMarkdown (MdHeading name)) in
  let! release_date := indexed (d !! "release_date") in
  let! rating := indexed (d !! "rating") in
  let! runtime := indexed (d !! "runtime") in
  let! _ := emit (UiMarkdown (MdFacts release_date rating runtime)) in
  let! overview := indexed (d !! "overview") in
  let! snippet := indexed (py_take200 overview) in
  let! _ := emit (UiMarkdown (MdOverview snippet)) in
  emit (UiMarkdown MdRule).

Fixpoint for_each {A} (l : list A) (body : A → U unit) : U unit :=
  match l with
  | [] => uret tt
  | x :: l' => let! _ := body x in for_each l' body
  end.

(** [for i in range(len(names)): ...] *)
Definition render (names : list string) (details : list (gmap string pyval))
  : U unit :=
  for_each (seq 0 (length names)) (render_entry names details).

(** What a run of the script gets from outside: the two pickled files (or
    the text of the exception raised while loading them), the secrets, the
    environment and the [.env] file, and the state of the two widgets. The
    select box gives one of its options, or None when it has none. The
    secrets are taken as a readable store of strings; the retry policy of
    the session stays inside the answers of [upstream]. *)
Record Session := {
  files : string + (list Row * list (list Q));
  secrets : gmap string string;
  environ : gmap string string;
  dotenv_file : gmap string string;
  selected_movie : option string;
  button_pressed : bool
}.

Definition selectbox_contract (options : list string) (sel : option string)
  : Prop :=
  match sel with
  | Some m => m ∈ options
  | None => options = []
  end.

(** [recommend(selected_movie)]; for None no title compares equal, the
    lookup raises IndexError as for an absent title. *)
Definition recommend_selected (api_key : option string)
    (movies_list : list Row) (similarity : list (list Q))
    (upstream : list event → string → transport_result)
    (sel : option string)
  : list event → (list string * list (gmap string pyval)) * list event :=
  match sel with
  | Some movie => recommend api_key movies_list similarity upstream movie
  | None => λ w, (([], []), w ++ [StError IndexError])
  end.

(** Lines 111 to 133. *)
Definition show_recommendations (api_key : option string)
    (movies_list : list Row) (similarity : list (list Q))
    (upstream : list event → string → transport_result)
    (sel : option string) : U unit :=
  let! _ := emit (UiSpinner "Finding similar movies...") in
  let! r := (λ u, let '(r, w) := recommend_selected api_key movies_list
                                   similarity upstream sel [] in
                  (Returned r, u ++ (Core <$> w))) in
  match r.1 with
  | [] => emit (UiError
            "Could not generate recommendation. Please try again later.")
  | _ => render r.1 r.2
  end.

(** The script from top to bottom. *)
Definition script (s : Session)
    (upstream : list event → string → transport_result) : U unit :=
  let! _ := emit (UiTitle "Movie Recommender System") in
  match files s with
  | inl msg =>
    let! _ := emit (UiError ("Error loading files : " +:+ msg)) in st_stop
  | inr (movies_list, similarity) =>
    let api_key := resolve_api_key (secrets s) (environ s) (dotenv_file s) in
    if api_key_missing api_key then
      let! _ := emit (UiError
        "TMDB API key is not configured. Please check your environment variables or secrets.") in
      st_stop
    else
      let! _ := emit (UiSelectbox "Select a movie you like"
                        (title <$> movies_list)) in
      let! _ := emit (UiButton "Show Recommendations") in
      if button_pressed s then
        show_recommendations api_key movies_list similarity upstream
          (selected_movie s)
      else uret tt
  end.



Definition is_rule (ev : ui_event) : bool :=
  match ev with UiMarkdown MdRule => true | _ => false end.

Definition headings (u : list ui_event) : list string :=
  omap (λ ev, match ev with UiMarkdown (MdHeading n) => Some n | _ => None end) u.

Definition core_events (u : list ui_event) : list event :=
  omap (λ ev, match ev with Core e => Some e | _ => None end) u.




(** A snapshot the loop of lines 118 to 133 goes through on: the five
    keys are there and the overview can be sliced. *)
Definition renderable (d : gmap string pyval) : bool :=
  match d !! "poster_path", d !! "release_date", d !! "rating",
        d !! "runtime", d !! "overview" with
  | Some _, Some _, Some _, Some _, Some ov =>
    bool_decide (is_Some (py_take200 ov))
  | _, _, _, _, _ => false
  end.





(** What the rendering loop can add to the page. *)
Definition rendered (details : list (gmap string pyval)) (ev : ui_event)
  : Prop :=
  match ev with
  | UiColumns | UiMarkdown _ => True
  | UiImage src _ => ∃ d, d ∈ details ∧ d !! "poster_path" = Some src
  | _ => False
  end.

Definition key_not_configured_text : string :=
  "TMDB API key is not configured. Please check your environment variables or secrets.".

Definition no_recommendation_text : string :=
  "Could not generate recommendation. Please try again later.".

(** The script stops at start-up: the files did not load, or no key is
    configured. *)
Definition is_inl_or_keyless (s : Session) : bool :=
  match files s with
  | inl _ => true
  | inr _ =>
    api_key_missing (resolve_api_key (secrets s) (environ s) (dotenv_file s))
  end.

(** ** Facts on sorting *)

Section Sorting.
Context {A : Type} (lt : A → A → bool).

Lemma insert_sorted_last (x : A) (l : list A) :
  Forall (λ y, lt y x = true) l → insert_sorted lt x l = l ++ [x].
Proof.
  induction 1 as [|y l Hy _ IH]; simpl; [done|].
  by rewrite Hy, IH.
Qed.

Lemma insert_sorted_length (x : A) (l : list A) :
  length (insert_sorted lt x l) = S (length l).
Proof.
  induction l as [|y l IH]; simpl; [done|].
  destruct (lt y x); simpl; by rewrite ?IH.
Qed.

Lemma stable_sort_length (l : list A) : length (stable_sort lt l) = length l.
Proof.
  induction l as [|x l IH]; simpl; [done|].
  by rewrite insert_sorted_length, IH.
Qed.

End Sorting.

Lemma enumerate_snoc {A} (l : list A) (x : A) :
  enumerate (l ++ [x]) = enumerate l ++ [(length l, x)].
Proof.
  unfold enumerate. rewrite imap_app. simpl.
  by rewrite Nat.add_0_r.
Qed.

Lemma enumerate_length {A} (l : list A) : length (enumerate l) = length l.
Proof. unfold enumerate. apply length_imap. Qed.

Lemma enumerate_lookup {A} (l : list A) (i : nat) :
  enumerate l !! i = pair i <$> l !! i.
Proof. unfold enumerate. apply list_lookup_imap. Qed.

Lemma enumerate_index_lt (l : list Q) (p : nat * Q) :
  p ∈ enumerate l → (p.1 < length l)%nat.
Proof.
  intros [i Hi]%list_elem_of_lookup.
  rewrite enumerate_lookup in Hi.
  destruct (l !! i) as [x|] eqn:Hx; simplify_eq/=.
  by eapply lookup_lt_Some.
Qed.

(** The scores never take part in the comparison: the indices of an
    enumeration are pairwise different, so sorting the enumeration in
    reverse is reversing it. *)
Lemma sorted_reverse_enumerate (distances : list Q) :
  sorted_reverse tuple_lt (enumerate distances) = reverse (enumerate distances).
Proof.
  unfold sorted_reverse. f_equal.
  induction distances as [|z d IH] using rev_ind; [done|].
  rewrite enumerate_snoc, reverse_snoc. simpl. rewrite IH.
  apply insert_sorted_last, Forall_forall.
  intros p Hp%enumerate_index_lt. unfold tuple_lt. simpl.
  destruct (Nat.eqb_spec p.1 (length d)) as [Heq|Hne]; [lia|]. simpl.
  by apply Nat.ltb_lt.
Qed.

Lemma neighbours_reverse (distances : list Q) :
  neighbours distances = take 5 (drop 1 (reverse (enumerate distances))).
Proof. unfold neighbours, py_slice. by rewrite sorted_reverse_enumerate. Qed.

Lemma neighbours_length (distances : list Q) :
  length (neighbours distances) = (5 `min` (length distances - 1))%nat.
Proof.
  rewrite neighbours_reverse, length_take, length_drop, length_reverse.
  by rewrite enumerate_length.
Qed.

Lemma neighbours_index_lt (distances : list Q) (p : nat * Q) :
  p ∈ neighbours distances → (p.1 < length distances)%nat.
Proof.
  rewrite neighbours_reverse.
  intros Hp. apply enumerate_index_lt, elem_of_reverse.
  by eapply subseteq_drop, subseteq_take.
Qed.

(** ** Facts on the metadata client *)

Lemma dom_snapshot (a b c d e : pyval) : dom (snapshot a b c d e) = snapshot_keys.
Proof.
  unfold snapshot, snapshot_keys. rewrite !dom_insert_L, dom_empty_L.
  set_solver.
Qed.

Lemma py_round1_pynum (v : pyval) :
  is_Some (pynum v) → ∃ r, py_round1 v = inr r.
Proof. destruct v; simpl; intros [x Hx]; by eauto. Qed.

Lemma details_of_data_not_request (data : pyval) (e : request_exception) :
  details_of_data data ≠ inl (RequestException e).
Proof.
  unfold details_of_data.
  destruct data as [| | | | | |d]; try done. simpl.
  destruct (truthy _).
  - destruct (default PNone (d !! "poster_path")); try done. simpl.
    destruct (default (PInt 0) (d !! "vote_average")); done.
  - destruct (default (PInt 0) (d !! "vote_average")); done.
Qed.

Lemma details_of_data_ok (data : pyval) :
  body_ok data = true → ∃ s, details_of_data data = inr s ∧ dom s = snapshot_keys.
Proof.
  unfold body_ok, details_of_data.
  destruct data as [| | | | | |d]; try done. simpl.
  intros [Hposter Hvote%bool_decide_eq_true_1]%andb_prop.
  destruct (py_round1_pynum _ Hvote) as [r ->].
  destruct (truthy _); simpl in Hposter.
  - destruct (default PNone (d !! "poster_path")); try done. simpl.
    eexists; split; [done|apply dom_snapshot].
  - eexists; split; [done|apply dom_snapshot].
Qed.

Lemma details_of_data_inr (data : pyval) (s : gmap string pyval) :
  details_of_data data = inr s → body_ok data = true ∧ dom s = snapshot_keys.
Proof.
  unfold body_ok, details_of_data.
  destruct data as [| | | | | |d]; try done. simpl.
  destruct (truthy _); simpl.
  - destruct (default PNone (d !! "poster_path")); try done. simpl.
    destruct (default (PInt 0) (d !! "vote_average")); try done; simpl;
      intros [= <-]; (split; [done|apply dom_snapshot]).
  - destruct (default (PInt 0) (d !! "vote_average")); try done; simpl;
      intros [= <-]; (split; [done|apply dom_snapshot]).
Qed.

Section FetchFacts.
Variable api_key : option string.
Variable upstream : list event → string → transport_result.

#[local] Abbreviation fetch := (fetch_movie_details api_key upstream).
#[local] Abbreviation url_of := (details_url api_key).
#[local] Abbreviation headers := (request_headers api_key).

Lemma fetch_no_key (movie : Z) (w : list event) :
  api_key_missing api_key = true →
  fetch movie w = (inr no_api_key_snapshot, w).
Proof. unfold fetch_movie_details. by intros ->. Qed.

(** With a credential, the four ways the request can end. *)
Lemma fetch_raised (movie : Z) (w : list event) (e : request_exception) :
  api_key_missing api_key = false →
  upstream w (url_of movie) = Raised e →
  fetch movie w =
    (inr network_failure_snapshot,
     (w ++ [HttpGet (url_of movie) headers]) ++ [StWarning movie e]).
Proof.
  unfold fetch_movie_details, try_except_request, bind, http_get.
  by intros -> ->.
Qed.

Lemma fetch_http_error (movie : Z) (w : list event) (r : Response) :
  api_key_missing api_key = false →
  upstream w (url_of movie) = Responded r →
  http_error_status r = true →
  fetch movie w =
    (inr network_failure_snapshot,
     (w ++ [HttpGet (url_of movie) headers])
       ++ [StWarning movie (HTTPError (status_code r))]).
Proof.
  unfold fetch_movie_details, try_except_request, bind, http_get,
    raise_for_status, http_error_status.
  by intros -> -> ->.
Qed.

Lemma fetch_not_json (movie : Z) (w : list event) (r : Response) :
  api_key_missing api_key = false →
  upstream w (url_of movie) = Responded r →
  http_error_status r = false →
  json_body r = None →
  fetch movie w =
    (inr network_failure_snapshot,
     (w ++ [HttpGet (url_of movie) headers])
       ++ [StWarning movie JSONDecodeError]).
Proof.
  unfold fetch_movie_details, try_except_request, bind, http_get,
    raise_for_status, http_error_status, response_json.
  by intros -> -> -> ->.
Qed.

Lemma fetch_decoded (movie : Z) (w : list event) (r : Response) (data : pyval) :
  api_key_missing api_key = false →
  upstream w (url_of movie) = Responded r →
  http_error_status r = false →
  json_body r = Some data →
  fetch movie w =
    (details_of_data data, w ++ [HttpGet (url_of movie) headers]).
Proof.
  unfold fetch_movie_details, try_except_request, bind, http_get,
    raise_for_status, http_error_status, response_json.
  intros -> -> -> ->. simpl.
  pose proof (details_of_data_not_request data) as Hne.
  destruct (details_of_data data) as [[e| | |]|s]; simpl; try done.
  by destruct (Hne e).
Qed.

(** Every snapshot that comes back has the five keys. *)
Lemma fetch_inr_dom (movie : Z) (w w' : list event) (s : gmap string pyval) :
  fetch movie w = (inr s, w') → dom s = snapshot_keys.
Proof.
  destruct (api_key_missing api_key) eqn:Hkey.
  { rewrite fetch_no_key by done. intros [= <- _]. apply dom_snapshot. }
  destruct (upstream w (url_of movie)) as [e|r] eqn:Hup.
  { erewrite fetch_raised by done. intros [= <- _]. apply dom_snapshot. }
  destruct (http_error_status r) eqn:Hst.
  { erewrite fetch_http_error by done. intros [= <- _]. apply dom_snapshot. }
  destruct (json_body r) as [data|] eqn:Hbody.
  - erewrite fetch_decoded by done. intros [= Hd _].
    by apply details_of_data_inr in Hd as [_ ?].
  - erewrite fetch_not_json by done. intros [= <- _]. apply dom_snapshot.
Qed.

(** When it has no credential, or the answer is one the mapping goes
    through on, the client returns. *)
Lemma fetch_returns (movie : Z) (w : list event) :
  api_key_missing api_key = true ∨ response_ok (upstream w (url_of movie)) = true →
  ∃ s w', fetch movie w = (inr s, w').
Proof.
  destruct (api_key_missing api_key) eqn:Hkey.
  { intros _. rewrite fetch_no_key by done. eauto. }
  intros [?|Hok]; [done|].
  destruct (upstream w (url_of movie)) as [e|r] eqn:Hup.
  { erewrite fetch_raised by done. eauto. }
  simpl in Hok.
  destruct (http_error_status r) eqn:Hst.
  { erewrite fetch_http_error by done. eauto. }
  destruct (json_body r) as [data|] eqn:Hbody.
  - erewrite fetch_decoded by done. simpl in Hok.
    destruct (details_of_data_ok _ Hok) as (s & -> & _). eauto.
  - erewrite fetch_not_json by done. eauto.
Qed.

End FetchFacts.

(** ** Facts on the recommendation loop *)

Section RecommendFacts.
Variable api_key : option string.
Variable movies_list : list Row.
Variable similarity : list (list Q).
Variable upstream : list event → string → transport_result.

#[local] Abbreviation loop := (recommend_loop api_key movies_list upstream).

(** When the loop ends normally it has appended one title and one snapshot
    per pair, in the order of the pairs. *)
Lemma recommend_loop_inr (recs : list (nat * Q)) :
  ∀ ns ds w r w',
    loop recs ns ds w = (inr r, w') →
    r.1 = ns ++ titles_of movies_list recs
    ∧ length r.1 = (length ns + length recs)%nat
    ∧ length r.2 = (length ds + length recs)%nat.
Proof.
  induction recs as [|p recs IH]; intros ns ds w r w'; simpl.
  - unfold ret. intros [= <- _]. simpl.
    by rewrite app_nil_r, !Nat.add_0_r.
  - unfold bind at 1, of_option.
    destruct (movies_list !! p.1) as [row|] eqn:Hrow; [|done]. simpl.
    unfold bind at 1.
    destruct (fetch_movie_details _ _ _ _) as [[e|d] w1]; [done|].
    intros (Hr & Hn & Hd)%IH.
    rewrite length_app in Hn, Hd. simpl in Hn, Hd.
    split; [|lia].
    by rewrite Hr, <- (assoc_L (++)).
Qed.

Lemma recommend_loop_returns (recs : list (nat * Q)) :
  Forall (λ p, is_Some (movies_list !! p.1)) recs →
  (∀ movie w, ∃ s w', fetch_movie_details api_key upstream movie w = (inr s, w')) →
  ∀ ns ds w, ∃ r w', loop recs ns ds w = (inr r, w').
Proof.
  intros Hrows Hfetch.
  induction Hrows as [|p recs [row Hrow] _ IH]; intros ns ds w; simpl.
  - unfold ret. eauto.
  - unfold bind at 1. rewrite Hrow. simpl. unfold bind at 1.
    destruct (Hfetch (movie_id row) w) as (s & w1 & ->).
    apply IH.
Qed.

(** Where the loop is entered: the title is found and its row exists. *)
Lemma recommend_found (movie : string) (i : nat) (row : Row)
    (distances : list Q) (w : list event) :
  list_find (λ r, title r = movie) movies_list = Some (i, row) →
  similarity !! i = Some distances →
  recommend api_key movies_list similarity upstream movie w =
    match loop (neighbours distances) [] [] w with
    | (inr r, w') => (r, w')
    | (inl e, w') => (([], []), w' ++ [StError e])
    end.
Proof.
  intros Hfind Hrow.
  unfold recommend, recommend_body, title_index, bind.
  rewrite Hfind. simpl. by rewrite Hrow.
Qed.

(** The names are those of the selected pairs, unless the body raised. *)
Lemma recommend_names (movie : string) (i : nat) (row : Row)
    (distances : list Q) (w : list event) :
  list_find (λ r, title r = movie) movies_list = Some (i, row) →
  similarity !! i = Some distances →
  (recommend api_key movies_list similarity upstream movie w).1.1 = []
  ∨ (recommend api_key movies_list similarity upstream movie w).1.1
    = titles_of movies_list (neighbours distances).
Proof.
  intros Hfind Hrow. rewrite (recommend_found _ _ _ _ _ Hfind Hrow).
  destruct (loop _ _ _ _) as [[e|r] w'] eqn:Hloop; [by left|right].
  by apply recommend_loop_inr in Hloop as (Hr & _).
Qed.

End RecommendFacts.

(** ** Facts on rounding *)



Lemma snapshot_poster (a b c d e : pyval) :
  snapshot a b c d e !! "poster_path" = Some a.
Proof. reflexivity. Qed.


(** ** The recommendation engine *)

(** C1. The specification's scenario: catalog A..F, similarity row of "A"
    equal to 1.0, 0.9, 0.8, 0.7, 0.6, 0.5. The specification expects the
    names B, C, D, E, F. The code sorts the pairs [(index, score)] without a
    key, hence by index: whatever the credential and the metadata service,
    [recommend("A")] never returns B, C, D, E, F, and with no credential it
    returns E, D, C, B, A. *)
Theorem C1_scenario_names_by_index :
  ∀ (api_key : option string) (rest : list (list Q))
    (upstream : list event → string → transport_result) (w : list event),
    (recommend api_key catalog6 (rowA :: rest) upstream "A" w).1.1
      ≠ ["B"; "C"; "D"; "E"; "F"]
    ∧ (recommend None catalog6 (rowA :: rest) upstream "A" w).1
      = (["E"; "D"; "C"; "B"; "A"], replicate 5 no_api_key_snapshot).
Proof.
  intros api_key rest upstream w. split.
  - destruct (recommend_names api_key catalog6 (rowA :: rest) upstream
                "A" 0 {| movie_id := 10; title := "A" |} rowA w)
      as [-> | ->]; [reflexivity|reflexivity|done|].
    vm_compute. discriminate.
  - vm_compute. reflexivity.
Qed.

(** C2. The specification orders the pairs of the query's row by score
    descending, ties by index descending. The code's selection does not
    look at the scores: it is positions 1 to 5 of the reversed enumeration,
    that is the indices n-2 down to n-6. On the scenario's row the two
    selections differ. *)
Theorem C2_selection_ignores_scores :
  (∀ distances : list Q,
      neighbours distances = py_slice 1 6 (reverse (enumerate distances)))
  ∧ neighbours rowA
    = [(4%nat, 6 # 10); (3%nat, 7 # 10); (2%nat, 8 # 10); (1%nat, 9 # 10);
       (0%nat, 1)]%Q
  ∧ neighbours_by_score rowA
    = [(1%nat, 9 # 10); (2%nat, 8 # 10); (3%nat, 7 # 10); (4%nat, 6 # 10);
       (5%nat, 5 # 10)]%Q.
Proof.
  split; [|split].
  - intros distances. apply neighbours_reverse.
  - vm_compute. reflexivity.
  - vm_compute. reflexivity.
Qed.

(** C3. In the scenario "A" occurs once and its own score, 1.0, is the
    largest of its row, yet the names returned for "A" contain "A", both
    with no credential and with a metadata service that answers well. *)
Theorem C3_scenario_returns_the_query :
  length (filter (λ r, title r = "A") catalog6) = 1%nat
  ∧ Forall (λ s, Qle_bool s 1 = true) rowA
  ∧ "A" ∈ (recommend None catalog6 matrix6 offline "A" []).1.1
  ∧ "A" ∈ (recommend (Some "k") catalog6 matrix6 (respond_with full_body)
             "A" []).1.1.
Proof.
  split; [reflexivity|]. split; [by repeat constructor|].
  assert ((recommend None catalog6 matrix6 offline "A" []).1.1
          = ["E"; "D"; "C"; "B"; "A"]) as -> by (vm_compute; reflexivity).
  assert ((recommend (Some "k") catalog6 matrix6 (respond_with full_body)
             "A" []).1.1
          = ["E"; "D"; "C"; "B"; "A"]) as -> by (vm_compute; reflexivity).
  split; set_solver.
Qed.

(** C4. For a title that is not in the catalog, [recommend] returns two
    empty lists; the lookup's IndexError is caught and reported, and no
    request is made. *)
Theorem C4_absent_title_returns_empty :
  ∀ (api_key : option string) (movies_list : list Row)
    (similarity : list (list Q))
    (upstream : list event → string → transport_result)
    (movie : string) (w : list event),
    movie ∉ title <$> movies_list →
    recommend api_key movies_list similarity upstream movie w
      = (([], []), w ++ [StError IndexError]).
Proof.
  intros api_key movies_list similarity upstream movie w Habsent.
  unfold recommend, recommend_body, title_index, bind.
  assert (list_find (λ r, title r = movie) movies_list = None) as ->; [|done].
  apply list_find_None, Forall_forall. intros r Hr Htitle.
  apply Habsent, list_elem_of_fmap. eauto.
Qed.

Lemma C4_absent_title_witness :
  ("Z" ∉ title <$> catalog6)
  ∧ recommend (Some "k") catalog6 matrix6 offline "Z" []
    = (([], []), [StError IndexError]).
Proof.
  assert ("Z" ∉ title <$> catalog6) as Habsent.
  { apply (bool_decide_unpack _). reflexivity. }
  split; [exact Habsent|].
  exact (C4_absent_title_returns_empty (Some "k") catalog6 matrix6 offline
           "Z" [] Habsent).
Defined.

(** C5, as stated, fails when a fetch raises: with a credential and a
    service answering [{"vote_average": null}], [round(None, 1)] raises
    TypeError inside [fetch_movie_details], [recommend] catches it and
    returns two empty lists for "A" in a catalog of two. *)
Lemma C5_counterexample :
  length (filter (λ r, title r = "A") catalog2) = 1%nat
  ∧ (2 <= length catalog2)%nat
  ∧ (recommend (Some "k") catalog2 matrix2 (respond_with null_rating) "A" []).1
    = ([], [])
  ∧ ¬ returns_min5 (Some "k") catalog2 matrix2 (respond_with null_rating) "A" [].
Proof.
  split; [reflexivity|]. split; [simpl; lia|].
  assert ((recommend (Some "k") catalog2 matrix2 (respond_with null_rating)
             "A" []).1 = ([], [])) as Hempty by (vm_compute; reflexivity).
  split; [exact Hempty|].
  unfold returns_min5. rewrite Hempty. simpl. intros [? _]. discriminate.
Qed.

(** C5, amended. For a title present in a catalog of n entries with an
    n-by-n similarity matrix, when no credential is configured or every
    answer of the metadata service is one the field mapping goes through
    on, [recommend] returns exactly min(5, n-1) names and as many
    snapshots, for every n (so also for the small catalogs). *)
Theorem C5_recommend_count :
  ∀ (api_key : option string) (movies_list : list Row)
    (similarity : list (list Q))
    (upstream : list event → string → transport_result)
    (movie : string) (w : list event),
    length similarity = length movies_list →
    Forall (λ row, length row = length movies_list) similarity →
    movie ∈ title <$> movies_list →
    api_key_missing api_key = true ∨ upstream_ok upstream →
    returns_min5 api_key movies_list similarity upstream movie w.
Proof.
  intros api_key movies_list similarity upstream movie w Hrows Hsquare
    Hpresent Hfetch.
  destruct (list_find (λ r, title r = movie) movies_list)
    as [[i row]|] eqn:Hfind; last first.
  { apply list_find_None in Hfind. rewrite Forall_forall in Hfind.
    apply list_elem_of_fmap in Hpresent as (r & -> & Hr).
    by destruct (Hfind r Hr). }
  assert (i < length movies_list)%nat as Hi.
  { apply list_find_Some in Hfind as (Hi & _). by eapply lookup_lt_Some. }
  destruct (lookup_lt_is_Some_2 similarity i) as [distances Hd]; [lia|].
  assert (length distances = length movies_list) as Hlen.
  { rewrite Forall_forall in Hsquare. apply Hsquare.
    apply list_elem_of_lookup. eauto. }
  unfold returns_min5.
  rewrite (recommend_found _ _ _ _ _ _ _ _ w Hfind Hd).
  destruct (recommend_loop_returns api_key movies_list upstream
              (neighbours distances)) with (ns := @nil string)
              (ds := @nil (gmap string pyval)) (w := w)
    as (r & w' & Hloop).
  - apply Forall_forall. intros p Hp%neighbours_index_lt.
    apply lookup_lt_is_Some_2. lia.
  - intros m w0. apply fetch_returns.
    destruct Hfetch as [?|Hok]; [by left|right; apply Hok].
  - rewrite Hloop. simpl.
    apply recommend_loop_inr in Hloop as (_ & Hn & Hs).
    rewrite Hn, Hs, neighbours_length, Hlen. simpl. lia.
Qed.

Lemma C5_recommend_count_witness :
  length matrix6 = length catalog6
  ∧ Forall (λ row, length row = length catalog6) matrix6
  ∧ ("A" ∈ title <$> catalog6)
  ∧ upstream_ok (respond_with full_body)
  ∧ returns_min5 (Some "k") catalog6 matrix6 (respond_with full_body) "A" [].
Proof.
  assert (Forall (λ row : list Q, length row = length catalog6) matrix6)
    as Hsquare by (repeat constructor).
  assert ("A" ∈ title <$> catalog6) as Hpresent
    by (apply (bool_decide_unpack _); reflexivity).
  assert (upstream_ok (respond_with full_body)) as Hok
    by (intros w url; reflexivity).
  split; [reflexivity|]. split; [exact Hsquare|]. split; [exact Hpresent|].
  split; [exact Hok|].
  exact (C5_recommend_count (Some "k") catalog6 matrix6
           (respond_with full_body) "A" [] eq_refl Hsquare Hpresent
           (or_intror Hok)).
Defined.

(** ** The metadata client *)

(** C6, as stated, fails on a successful answer whose rating is null: the
    request for movie 42 is made, [round(None, 1)] raises TypeError, which
    is not a RequestException and reaches the caller. *)
Lemma C6_counterexample :
  fetch_movie_details (Some "k") (respond_with null_rating) 42 []
  = (inl TypeError,
     [HttpGet "https://api.themoviedb.org/3/movie/42?api_key=k"
        [("Accept", "application/json"); ("Authorization", "Bearer k")]]).
Proof. vm_compute. reflexivity. Qed.

(** C6, amended. When no credential is configured, or the request fails at
    the transport level (the session raises, the final status is 4xx or
    5xx, the body is not JSON), or the decoded body is an object whose
    poster path is falsy or a string and whose rating is absent or a
    number, [fetch_movie_details] returns a snapshot with the five keys;
    with a credential and a transport-level failure that snapshot is the
    network-failure fallback (rating 0.0, runtime "N/A"). *)
Theorem C6_fetch_resolves :
  ∀ (api_key : option string)
    (upstream : list event → string → transport_result)
    (movie : Z) (w : list event),
    api_key_missing api_key = true
    ∨ response_ok (upstream w (details_url api_key movie)) = true →
    ∃ s w',
      fetch_movie_details api_key upstream movie w = (inr s, w')
      ∧ dom s = snapshot_keys
      ∧ (api_key_missing api_key = false →
         transport_failed (upstream w (details_url api_key movie)) = true →
         s = network_failure_snapshot
         ∧ s !! "rating" = Some (PFloat 0)
         ∧ s !! "runtime" = Some (PStr "N/A")).
Proof.
  intros api_key upstream movie w Hok.
  destruct (fetch_returns api_key upstream movie w Hok) as (s & w' & Hfetch).
  exists s, w'. split; [done|]. split; [by eapply fetch_inr_dom|].
  intros Hkey Hfailed.
  assert (s = network_failure_snapshot) as ->; [|done].
  destruct (upstream w (details_url api_key movie)) as [e|r] eqn:Hup.
  { erewrite fetch_raised in Hfetch by done. by injection Hfetch as <- _. }
  simpl in Hfailed.
  destruct (http_error_status r) eqn:Hst.
  { erewrite fetch_http_error in Hfetch by done. by injection Hfetch as <- _. }
  simpl in Hfailed. apply bool_decide_eq_true_1 in Hfailed.
  erewrite fetch_not_json in Hfetch by done. by injection Hfetch as <- _.
Qed.

Lemma C6_fetch_resolves_witness :
  (api_key_missing (Some "k") = true
   ∨ response_ok (offline [] (details_url (Some "k") 42)) = true)
  ∧ ∃ s w',
      fetch_movie_details (Some "k") offline 42 [] = (inr s, w')
      ∧ dom s = snapshot_keys
      ∧ (api_key_missing (Some "k") = false →
         transport_failed (offline [] (details_url (Some "k") 42)) = true →
         s = network_failure_snapshot
         ∧ s !! "rating" = Some (PFloat 0)
         ∧ s !! "runtime" = Some (PStr "N/A")).
Proof.
  split; [right; reflexivity|].
  apply (C6_fetch_resolves (Some "k") offline 42 []).
  right; reflexivity.
Defined.




Lemma success_not_error (r : Response) :
  200 <= status_code r < 300 → http_error_status r = false.
Proof.
  intros Hst. unfold http_error_status.
  apply andb_false_iff. left. apply Z.leb_gt. lia.
Qed.

Lemma details_of_data_mapped (d : gmap string pyval) :
  body_ok (PDict d) = true →
  details_of_data (PDict d) =
    inr (snapshot (mapped_poster (d !! "poster_path"))
           (default (PStr "No overview available") (d !! "overview"))
           (default (PStr "Release date unknown") (d !! "release_date"))
           (mapped_rating (d !! "vote_average"))
           (default (PStr "N/A") (d !! "runtime"))).
Proof.
  unfold body_ok, details_of_data. simpl.
  intros [Hposter [q Hvote]%bool_decide_eq_true_1]%andb_prop.
  assert ((if truthy (default PNone (d !! "poster_path"))
           then py_str_add image_base (default PNone (d !! "poster_path"))
           else inr (PStr no_image_url))
          = inr (mapped_poster (d !! "poster_path"))) as ->.
  { destruct (d !! "poster_path") as [v|]; [|done]. simpl in *.
    destruct v as [|b|z|x|s|l|m]; simpl in *.
    - done.
    - by destruct b.
    - by destruct (z =? 0).
    - by destruct (Qeq_bool x 0).
    - by destruct (String.eqb s "").
    - by destruct l.
    - by destruct (map_to_list m). }
  assert (py_round1 (default (PInt 0) (d !! "vote_average"))
          = inr (mapped_rating (d !! "vote_average"))) as ->; [|done].
  destruct (d !! "vote_average") as [v|]; [|done].
  by destruct v.
Qed.

(** C8, as stated, fails where a key is present with a value the code does
    not treat as present: an empty poster path gets the placeholder, not
    the image base followed by the empty path; a null rating is not
    rounded, [round] raises TypeError. *)
Lemma C8_counterexample :
  empty_poster_body !! "poster_path" = Some (PStr "")
  ∧ (∃ s w',
        fetch_movie_details (Some "k") (respond_with empty_poster_body) 42 []
          = (inr s, w')
        ∧ s !! "poster_path" = Some (PStr no_image_url)
        ∧ s !! "poster_path" ≠ Some (PStr (image_base +:+ "")))
  ∧ null_rating !! "vote_average" = Some PNone
  ∧ (fetch_movie_details (Some "k") (respond_with null_rating) 42 []).1
    = inl TypeError.
Proof.
  split; [reflexivity|]. split; [|split; [reflexivity|vm_compute; reflexivity]].
  eexists _, _. split; [vm_compute; reflexivity|].
  split; [reflexivity|]. vm_compute. discriminate.
Qed.

(** C8, amended. For a 2xx answer whose body is an object with a poster
    path that is falsy or a string and a rating that is absent or a
    number: the poster is the placeholder URL when the path is absent or
    falsy and the image base followed by the path when it is a non-empty
    string; overview, release date and runtime are the body's values, or
    "No overview available", "Release date unknown" and "N/A" when the
    key is absent; the rating is 0 when absent and the number rounded to
    one decimal otherwise (7.666 gives 7.7, see the witness). *)
Theorem C8_success_mapping :
  ∀ (api_key : option string)
    (upstream : list event → string → transport_result)
    (movie : Z) (w : list event) (r : Response) (d : gmap string pyval),
    api_key_missing api_key = false →
    upstream w (details_url api_key movie) = Responded r →
    200 <= status_code r < 300 →
    json_body r = Some (PDict d) →
    body_ok (PDict d) = true →
    fetch_movie_details api_key upstream movie w =
      (inr (snapshot (mapped_poster (d !! "poster_path"))
              (default (PStr "No overview available") (d !! "overview"))
              (default (PStr "Release date unknown") (d !! "release_date"))
              (mapped_rating (d !! "vote_average"))
              (default (PStr "N/A") (d !! "runtime"))),
       w ++ [HttpGet (details_url api_key movie) (request_headers api_key)]).
Proof.
  intros api_key upstream movie w r d Hkey Hup Hst%success_not_error Hbody Hok.
  erewrite fetch_decoded by done.
  by rewrite details_of_data_mapped.
Qed.

Lemma C8_success_mapping_witness :
  fetch_movie_details (Some "k") (respond_with scenario_body) 42 [] =
    (inr (snapshot (PStr no_image_url) (PStr "No overview available")
            (PStr "Release date unknown") (PFloat (77 # 10)) (PStr "N/A")),
     [HttpGet (details_url (Some "k") 42) (request_headers (Some "k"))]).
Proof.
  apply (C8_success_mapping (Some "k") (respond_with scenario_body) 42 []
           {| status_code := 200; json_body := Some (PDict scenario_body) |}
           scenario_body).
  - reflexivity.
  - reflexivity.
  - simpl. lia.
  - reflexivity.
  - reflexivity.
Defined.

(** C9. With no credential (the key is None or empty),
    [fetch_movie_details] returns the "No+API+Key" snapshot for every
    movie, whatever the metadata service would answer, and leaves the log
    as it was: no request is made. *)
Theorem C9_no_credential_fallback :
  ∀ (api_key : option string)
    (upstream : list event → string → transport_result)
    (movie : Z) (w : list event),
    api_key_missing api_key = true →
    fetch_movie_details api_key upstream movie w =
      (inr (snapshot
              (PStr "https://via.placeholder.com/500x750?text=No+API+Key")
              (PStr "API key not configured") (PStr "Unknown") (PFloat 0)
              (PStr "N/A")),
       w).
Proof.
  intros api_key upstream movie w Hkey.
  by rewrite fetch_no_key.
Qed.

Lemma C9_no_credential_fallback_witness :
  api_key_missing None = true
  ∧ fetch_movie_details None (respond_with full_body) 42 [] =
      (inr (snapshot
              (PStr "https://via.placeholder.com/500x750?text=No+API+Key")
              (PStr "API key not configured") (PStr "Unknown") (PFloat 0)
              (PStr "N/A")),
       []).
Proof.
  split; [reflexivity|].
  apply (C9_no_credential_fallback None (respond_with full_body) 42 []).
  reflexivity.
Defined.



(** * Further properties of the code *)

(** ** [fetch_movie_details]: what it logs, what escapes it *)





Lemma details_of_data_inr_mapped (data : pyval) (s : gmap string pyval) :
  details_of_data data = inr s →
  ∃ d, data = PDict d ∧ body_ok (PDict d) = true
    ∧ s = snapshot (mapped_poster (d !! "poster_path"))
            (default (PStr "No overview available") (d !! "overview"))
            (default (PStr "Release date unknown") (d !! "release_date"))
            (mapped_rating (d !! "vote_average"))
            (default (PStr "N/A") (d !! "runtime")).
Proof.
  intros Hs. pose proof (details_of_data_inr _ _ Hs) as [Hok _].
  destruct data as [| | | | | |d]; try done.
  exists d. split; [done|]. split; [done|].
  rewrite details_of_data_mapped in Hs by done. congruence.
Qed.

(** The cases of a call that returns: the two fallbacks and the mapping. *)
Lemma fetch_inr_cases (api_key : option string)
    (upstream : list event → string → transport_result)
    (movie : Z) (w w' : list event) (s : gmap string pyval) :
  fetch_movie_details api_key upstream movie w = (inr s, w') →
  s = no_api_key_snapshot ∨ s = network_failure_snapshot
  ∨ ∃ r d, api_key_missing api_key = false
      ∧ upstream w (details_url api_key movie) = Responded r
      ∧ http_error_status r = false
      ∧ json_body r = Some (PDict d)
      ∧ body_ok (PDict d) = true
      ∧ s = snapshot (mapped_poster (d !! "poster_path"))
              (default (PStr "No overview available") (d !! "overview"))
              (default (PStr "Release date unknown") (d !! "release_date"))
              (mapped_rating (d !! "vote_average"))
              (default (PStr "N/A") (d !! "runtime")).
Proof.
  destruct (api_key_missing api_key) eqn:Hkey.
  { rewrite fetch_no_key by done. intros [= <- _]. by left. }
  destruct (upstream w (details_url api_key movie)) as [e|r] eqn:Hup.
  { erewrite fetch_raised by done. intros [= <- _]. right. by left. }
  destruct (http_error_status r) eqn:Hst.
  { erewrite fetch_http_error by done. intros [= <- _]. right. by left. }
  destruct (json_body r) as [data|] eqn:Hbody; last first.
  { erewrite fetch_not_json by done. intros [= <- _]. right. by left. }
  erewrite fetch_decoded by done. intros [= Hd _].
  apply details_of_data_inr_mapped in Hd as (d & -> & Hok & ->).
  right. right. by exists r, d.
Qed.

(** The poster of every snapshot returned is a string: one of the two
    placeholder URLs, or the image base followed by a non-empty path. *)
Theorem fetch_poster_is_url :
  ∀ (api_key : option string)
    (upstream : list event → string → transport_result)
    (movie : Z) (w w' : list event) (s : gmap string pyval),
    fetch_movie_details api_key upstream movie w = (inr s, w') →
    ∃ u, s !! "poster_path" = Some (PStr u)
      ∧ (u = "https://via.placeholder.com/500x750?text=No+API+Key"
         ∨ u = "https://via.placeholder.com/500x750?text=No+Image+Available"
         ∨ ∃ p, p ≠ "" ∧ u = "https://image.tmdb.org/t/p/w500/" +:+ p).
Proof.
  intros api_key upstream movie w w' s
    [-> | [-> | (r & d & _ & _ & _ & _ & _ & ->)]]%fetch_inr_cases.
  - eexists. split; [reflexivity|]. by left.
  - eexists. split; [reflexivity|]. right. by left.
  - rewrite snapshot_poster. unfold mapped_poster.
    destruct (d !! "poster_path") as [[| | | |p| |]|];
      try (eexists; split; [reflexivity|]; right; by left).
    destruct (String.eqb_spec p "") as [->|Hp].
    + eexists. split; [reflexivity|]. right. by left.
    + eexists. split; [reflexivity|]. right. right. by exists p.
Qed.

Lemma fetch_poster_is_url_witness :
  ∃ (s : gmap string pyval) (w' : list event),
    fetch_movie_details (Some "k") (respond_with full_body) 42 [] = (inr s, w')
    ∧ ∃ u, s !! "poster_path" = Some (PStr u)
        ∧ (u = "https://via.placeholder.com/500x750?text=No+API+Key"
           ∨ u = "https://via.placeholder.com/500x750?text=No+Image+Available"
           ∨ ∃ p, p ≠ "" ∧ u = "https://image.tmdb.org/t/p/w500/" +:+ p).
Proof.
  eexists _, _. split; [vm_compute; reflexivity|].
  eapply (fetch_poster_is_url (Some "k") (respond_with full_body) 42 []).
  vm_compute. reflexivity.
Defined.






(** ** [recommend]: sizes, requests, bounds *)




Lemma recommend_cases (api_key : option string) (movies_list : list Row)
    (similarity : list (list Q))
    (upstream : list event → string → transport_result)
    (movie : string) (w : list event) :
  recommend api_key movies_list similarity upstream movie w =
    match list_find (λ r, title r = movie) movies_list with
    | None => (([], []), w ++ [StError IndexError])
    | Some (i, _) =>
      match similarity !! i with
      | None => (([], []), w ++ [StError IndexError])
      | Some distances =>
        match recommend_loop api_key movies_list upstream
                (neighbours distances) [] [] w with
        | (inr r, w') => (r, w')
        | (inl e, w') => (([], []), w' ++ [StError e])
        end
      end
    end.
Proof.
  unfold recommend, recommend_body, title_index, bind, of_option.
  destruct (list_find _ movies_list) as [[i row]|]; simpl; [|done].
  by destruct (similarity !! i).
Qed.

(** The two lists [recommend] returns have the same length, at most five,
    for every title, catalog, matrix and metadata service. *)
Theorem recommend_lists_aligned :
  ∀ (api_key : option string) (movies_list : list Row)
    (similarity : list (list Q))
    (upstream : list event → string → transport_result)
    (movie : string) (w : list event),
    length (recommend api_key movies_list similarity upstream movie w).1.1
    = length (recommend api_key movies_list similarity upstream movie w).1.2
    ∧ (length (recommend api_key movies_list similarity upstream movie w).1.1
       <= 5)%nat.
Proof.
  intros api_key movies_list similarity upstream movie w.
  rewrite recommend_cases.
  destruct (list_find _ movies_list) as [[i row]|]; simpl; [|split; [done|lia]].
  destruct (similarity !! i) as [distances|]; simpl; [|split; [done|lia]].
  destruct (recommend_loop _ _ _ _ _ _ _) as [[e|r] w'] eqn:Hloop; simpl;
    [split; [done|lia]|].
  apply recommend_loop_inr in Hloop as (_ & Hn & Hd).
  rewrite Hn, Hd, neighbours_length. simpl length. lia.
Qed.


Lemma titles_of_rows (movies_list : list Row) (recs : list (nat * Q))
    (rows : list Row) :
  Forall2 (λ p r, movies_list !! p.1 = Some r) recs rows →
  titles_of movies_list recs = title <$> rows.
Proof.
  induction 1 as [|p r recs rows Hp _ IH]; [done|].
  unfold titles_of in *. simpl. rewrite Hp. simpl. f_equal. exact IH.
Qed.

Lemma titles_of_neighbours (movies_list : list Row) (distances : list Q) :
  length distances = length movies_list →
  titles_of movies_list (neighbours distances)
  = take 5 (drop 1 (reverse (title <$> movies_list))).
Proof.
  intros Hlen. rewrite neighbours_reverse.
  rewrite <- fmap_reverse, <- fmap_drop, <- fmap_take.
  apply titles_of_rows, Forall2_take, Forall2_drop, Forall2_reverse.
  apply Forall2_same_length_lookup_2.
  { by rewrite enumerate_length. }
  intros i p r Hp Hr. rewrite enumerate_lookup in Hp.
  destruct (distances !! i); by simplify_eq/=.
Qed.

(** On a catalog of n entries with an n-by-n matrix, when the fetches
    return, the names are those of the catalog read backwards from the last
    but one entry, five at most: they depend neither on the title asked for
    nor on any score of the matrix. *)
Theorem recommend_names_from_catalog_order :
  ∀ (api_key : option string) (movies_list : list Row)
    (similarity : list (list Q))
    (upstream : list event → string → transport_result)
    (movie : string) (w : list event),
    length similarity = length movies_list →
    Forall (λ row, length row = length movies_list) similarity →
    movie ∈ title <$> movies_list →
    api_key_missing api_key = true ∨ upstream_ok upstream →
    (recommend api_key movies_list similarity upstream movie w).1.1
    = take 5 (drop 1 (reverse (title <$> movies_list))).
Proof.
  intros api_key movies_list similarity upstream movie w Hrows Hsquare
    Hpresent Hfetch.
  destruct (list_find (λ r, title r = movie) movies_list)
    as [[i row]|] eqn:Hfind; last first.
  { apply list_find_None in Hfind. rewrite Forall_forall in Hfind.
    apply list_elem_of_fmap in Hpresent as (r & -> & Hr).
    by destruct (Hfind r Hr). }
  assert (i < length movies_list)%nat as Hi.
  { apply list_find_Some in Hfind as (Hi & _). by eapply lookup_lt_Some. }
  destruct (lookup_lt_is_Some_2 similarity i) as [distances Hd]; [lia|].
  assert (length distances = length movies_list) as Hlen.
  { rewrite Forall_forall in Hsquare. apply Hsquare.
    apply list_elem_of_lookup. eauto. }
  rewrite (recommend_found _ _ _ _ _ _ _ _ w Hfind Hd).
  destruct (recommend_loop_returns api_key movies_list upstream
              (neighbours distances)) with (ns := @nil string)
              (ds := @nil (gmap string pyval)) (w := w)
    as (r & w' & Hloop).
  - apply Forall_forall. intros p Hp%neighbours_index_lt.
    apply lookup_lt_is_Some_2. lia.
  - intros m w0. apply fetch_returns.
    destruct Hfetch as [?|Hok]; [by left|right; apply Hok].
  - rewrite Hloop. simpl.
    apply recommend_loop_inr in Hloop as (-> & _). simpl.
    by apply titles_of_neighbours.
Qed.

Lemma recommend_names_from_catalog_order_witness :
  (recommend (Some "k") catalog6 matrix6 (respond_with full_body) "C" []).1.1
  = ["E"; "D"; "C"; "B"; "A"].
Proof.
  apply (recommend_names_from_catalog_order (Some "k") catalog6 matrix6
           (respond_with full_body) "C" []).
  - reflexivity.
  - repeat constructor.
  - apply (bool_decide_unpack _). reflexivity.
  - right. intros w url. reflexivity.
Defined.

Lemma neighbours_head (distances : list Q) :
  (2 <= length distances)%nat →
  ∃ x rest, neighbours distances = ((length distances - 2)%nat, x) :: rest.
Proof.
  intros Hlen.
  assert (∃ x, neighbours distances !! 0%nat
               = Some ((length distances - 2)%nat, x)) as [x Hx].
  { rewrite neighbours_reverse, lookup_take_lt, lookup_drop by lia.
    rewrite reverse_lookup by (rewrite enumerate_length; lia).
    rewrite enumerate_length, enumerate_lookup.
    replace (length distances - S (1 + 0))%nat
      with (length distances - 2)%nat by lia.
    destruct (lookup_lt_is_Some_2 distances (length distances - 2))
      as [x ->]; [lia|]. by exists x. }
  destruct (neighbours distances) as [|p rest]; [done|].
  simpl in Hx. injection Hx as ->. by exists x, rest.
Qed.

(** When the matrix has no row at the title's index, or that row is longer
    than the catalog by two entries or more, the indexing raises
    IndexError before any request: [recommend] returns two empty lists and
    reports the error. *)
Theorem recommend_index_out_of_bounds :
  ∀ (api_key : option string) (movies_list : list Row)
    (similarity : list (list Q))
    (upstream : list event → string → transport_result)
    (movie : string) (w : list event) (i : nat) (row : Row),
    list_find (λ r, title r = movie) movies_list = Some (i, row) →
    similarity !! i = None
    ∨ (∃ distances, similarity !! i = Some distances
         ∧ (length movies_list + 2 <= length distances)%nat) →
    recommend api_key movies_list similarity upstream movie w
    = (([], []), w ++ [StError IndexError]).
Proof.
  intros api_key movies_list similarity upstream movie w i row Hfind Hbad.
  rewrite recommend_cases, Hfind.
  destruct Hbad as [-> | (distances & -> & Hlen)]; [done|].
  destruct (neighbours_head distances) as (x & rest & ->); [lia|].
  simpl. unfold bind at 1, of_option. simpl.
  rewrite (lookup_ge_None_2 movies_list) by lia. done.
Qed.

Lemma recommend_index_out_of_bounds_witness :
  recommend (Some "k") catalog2 matrix6 (respond_with full_body) "A" []
  = (([], []), [StError IndexError]).
Proof.
  apply (recommend_index_out_of_bounds (Some "k") catalog2 matrix6
           (respond_with full_body) "A" [] 0
           {| movie_id := 10; title := "A" |}).
  - reflexivity.
  - right. exists rowA. split; [reflexivity|]. simpl. lia.
Defined.

(** When the row of the title has one entry or none (a catalog of a single
    movie), nothing is selected: [recommend] returns two empty lists
    without any request and without reporting an error. *)
Theorem recommend_single_entry_row :
  ∀ (api_key : option string) (movies_list : list Row)
    (similarity : list (list Q))
    (upstream : list event → string → transport_result)
    (movie : string) (w : list event) (i : nat) (row : Row)
    (distances : list Q),
    list_find (λ r, title r = movie) movies_list = Some (i, row) →
    similarity !! i = Some distances →
    (length distances <= 1)%nat →
    recommend api_key movies_list similarity upstream movie w = (([], []), w).
Proof.
  intros api_key movies_list similarity upstream movie w i row distances
    Hfind Hrow Hlen.
  rewrite recommend_cases, Hfind, Hrow.
  assert (neighbours distances = []) as ->; [|done].
  apply nil_length_inv. rewrite neighbours_length. lia.
Qed.

Lemma recommend_single_entry_row_witness :
  recommend (Some "k") [ {| movie_id := 10; title := "A" |} ] [ [1%Q] ]
    (respond_with full_body) "A" []
  = (([], []), []).
Proof.
  apply (recommend_single_entry_row (Some "k")
           [ {| movie_id := 10; title := "A" |} ] [ [1%Q] ]
           (respond_with full_body) "A" [] 0
           {| movie_id := 10; title := "A" |} [1%Q]).
  - reflexivity.
  - reflexivity.
  - simpl. lia.
Defined.

(** ** The rendering loop *)

Lemma render_entry_ok (names : list string)
    (details : list (gmap string pyval)) (i : nat) (name : string)
    (d : gmap string pyval) (u : list ui_event) :
  names !! i = Some name → details !! i = Some d → renderable d = true →
  ∃ poster release_date rating runtime snippet,
    render_entry names details i u =
      (Returned tt,
       u ++ [UiColumns; UiImage poster 170; UiMarkdown (MdHeading name);
             UiMarkdown (MdFacts release_date rating runtime);
             UiMarkdown (MdOverview snippet); UiMarkdown MdRule])
    ∧ d !! "poster_path" = Some poster.
Proof.
  intros Hname Hd Hok. unfold renderable in Hok.
  destruct (d !! "poster_path") as [poster|] eqn:Hp; [|done].
  destruct (d !! "release_date") as [rd|] eqn:Hrd; [|done].
  destruct (d !! "rating") as [rating|] eqn:Hra; [|done].
  destruct (d !! "runtime") as [rt|] eqn:Hrt; [|done].
  destruct (d !! "overview") as [ov|] eqn:Hov; [|done].
  apply bool_decide_eq_true_1 in Hok as [snip Hsnip].
  exists poster, rd, rating, rt, snip. split; [|done].
  unfold render_entry, ubind, emit, indexed.
  rewrite Hd, Hp, Hname, Hrd, Hra, Hrt, Hov, Hsnip.
  by rewrite <- !(assoc_L (++)).
Qed.

Lemma render_entry_log (names : list string)
    (details : list (gmap string pyval)) (i : nat) (u : list ui_event) :
  ∃ evs, (render_entry names details i u).2 = u ++ evs
    ∧ Forall (rendered details) evs.
Proof.
  unfold render_entry, ubind, emit, indexed.
  destruct (details !! i) as [d|] eqn:Hd; simpl;
    [|exists [UiColumns]; split; [done|by repeat constructor]].
  assert (d ∈ details) as Hin by (apply list_elem_of_lookup; eauto).
  destruct (d !! "poster_path") as [poster|] eqn:Hp; simpl;
    [|exists [UiColumns]; split; [done|by repeat constructor]].
  assert (rendered details (UiImage poster 170)) as Himg by (simpl; eauto).
  destruct (names !! i) as [name|]; simpl;
    [|eexists [_; _]; split; [by rewrite <- !(assoc_L (++))|by repeat constructor]].
  destruct (d !! "release_date") as [rd|]; simpl;
    [|eexists [_; _; _]; split;
      [by rewrite <- !(assoc_L (++))|by repeat constructor]].
  destruct (d !! "rating") as [rating|]; simpl;
    [|eexists [_; _; _]; split;
      [by rewrite <- !(assoc_L (++))|by repeat constructor]].
  destruct (d !! "runtime") as [rt|]; simpl;
    [|eexists [_; _; _]; split;
      [by rewrite <- !(assoc_L (++))|by repeat constructor]].
  destruct (d !! "overview") as [ov|]; simpl;
    [|eexists [_; _; _; _]; split;
      [by rewrite <- !(assoc_L (++))|by repeat constructor]].
  destruct (py_take200 ov) as [snip|]; simpl.
  - eexists [_; _; _; _; _; _]; split;
      [by rewrite <- !(assoc_L (++))|by repeat constructor].
  - eexists [_; _; _; _]; split;
      [by rewrite <- !(assoc_L (++))|by repeat constructor].
Qed.

Lemma for_each_render_log (names : list string)
    (details : list (gmap string pyval)) (l : list nat) :
  ∀ u, ∃ evs,
    (for_each l (render_entry names details) u).2 = u ++ evs
    ∧ Forall (rendered details) evs.
Proof.
  induction l as [|i l IH]; intros u; simpl.
  - exists []. by rewrite app_nil_r.
  - unfold ubind.
    destruct (render_entry_log names details i u) as (evs1 & Hu1 & Hf1).
    destruct (render_entry names details i u) as [[[]| |] u1];
      simpl in Hu1; subst u1; [|by exists evs1..].
    destruct (IH (u ++ evs1)) as (evs2 & -> & Hf2).
    exists (evs1 ++ evs2). rewrite (assoc_L (++)). split; [done|].
    by apply Forall_app.
Qed.

Lemma headings_app (a b : list ui_event) :
  headings (a ++ b) = headings a ++ headings b.
Proof. unfold headings. apply omap_app. Qed.


Lemma core_events_rendered (details : list (gmap string pyval))
    (evs : list ui_event) :
  Forall (rendered details) evs → core_events evs = [].
Proof.
  induction 1 as [|ev evs Hev _ IH]; [done|].
  unfold core_events in *. simpl. by destruct ev.
Qed.


Lemma for_each_render_ok (names : list string)
    (details : list (gmap string pyval)) (m : nat) :
  ∀ k u,
    (k + m)%nat = length names →
    (∀ i, (k <= i < length names)%nat →
          ∃ d, details !! i = Some d ∧ renderable d = true) →
    ∃ evs,
      for_each (seq k m) (render_entry names details) u
        = (Returned tt, u ++ evs)
      ∧ headings evs = drop k names.
Proof.
  induction m as [|m IH]; intros k u Hlen Hdetails; simpl.
  - exists []. rewrite app_nil_r. split; [done|].
    by rewrite drop_ge by lia.
  - destruct (Hdetails k) as (d & Hd & Hok); [lia|].
    destruct (lookup_lt_is_Some_2 names k) as [name Hname]; [lia|].
    destruct (render_entry_ok names details k name d u Hname Hd Hok)
      as (poster & rd & rating & rt & snip & Hentry & _).
    unfold ubind at 1. rewrite Hentry.
    destruct (IH (S k) (u ++ [UiColumns; UiImage poster 170;
                              UiMarkdown (MdHeading name);
                              UiMarkdown (MdFacts rd rating rt);
                              UiMarkdown (MdOverview snip);
                              UiMarkdown MdRule]))
      as (evs & -> & Hheads); [lia|intros i Hi; apply Hdetails; lia|].
    eexists. rewrite <- (assoc_L (++)). split; [done|].
    rewrite headings_app, Hheads. simpl.
    by rewrite (drop_S names name k).
Qed.

(** When the two lists are aligned and every snapshot has its five keys
    and an overview that can be sliced, the loop ends normally and shows
    one block per name, in the order of the names. *)
Theorem render_shows_every_name :
  ∀ (names : list string) (details : list (gmap string pyval))
    (u : list ui_event),
    length names = length details →
    Forall (λ d, renderable d = true) details →
    ∃ evs,
      render names details u = (Returned tt, u ++ evs)
      ∧ headings evs = names
      ∧ core_events evs = [].
Proof.
  intros names details u Hlen Hok.
  destruct (for_each_render_ok names details (length names) 0 u)
    as (evs & Hrender & Hheads); [done| |].
  { intros i Hi.
    destruct (lookup_lt_is_Some_2 details i) as [d Hd]; [lia|].
    exists d. split; [done|].
    rewrite Forall_forall in Hok. apply Hok, list_elem_of_lookup. eauto. }
  exists evs. unfold render. split; [done|]. split; [done|].
  destruct (for_each_render_log names details (seq 0 (length names)) u)
    as (evs' & Hlog & Hf).
  rewrite Hrender in Hlog. simpl in Hlog. apply app_inv_head in Hlog as ->.
  by eapply core_events_rendered.
Qed.

Lemma render_shows_every_name_witness :
  ∃ evs,
    render ["E"; "D"] [network_failure_snapshot; no_api_key_snapshot] []
      = (Returned tt, [] ++ evs)
    ∧ headings evs = ["E"; "D"]
    ∧ core_events evs = [].
Proof.
  apply (render_shows_every_name ["E"; "D"]
           [network_failure_snapshot; no_api_key_snapshot] []).
  - reflexivity.
  - repeat constructor.
Defined.

(** When the overview of the first snapshot cannot be sliced (it is null,
    or a number), the loop raises after the image, the heading and the
    facts of the first block: nothing else is shown. *)
Theorem render_unsliceable_overview_crashes :
  ∀ (name : string) (names : list string) (d : gmap string pyval)
    (details : list (gmap string pyval)) (u : list ui_event)
    (poster release_date rating runtime overview : pyval),
    d !! "poster_path" = Some poster →
    d !! "release_date" = Some release_date →
    d !! "rating" = Some rating →
    d !! "runtime" = Some runtime →
    d !! "overview" = Some overview →
    py_take200 overview = None →
    render (name :: names) (d :: details) u =
      (Crashed,
       u ++ [UiColumns; UiImage poster 170; UiMarkdown (MdHeading name);
             UiMarkdown (MdFacts release_date rating runtime)]).
Proof.
  intros name names d details u poster rd rating rt ov Hp Hrd Hra Hrt Hov Hs.
  unfold render. simpl. unfold ubind at 1.
  unfold render_entry, ubind, emit, indexed. simpl.
  rewrite Hp, Hrd, Hra, Hrt, Hov, Hs. simpl.
  by rewrite <- !(assoc_L (++)).
Qed.

Lemma render_unsliceable_overview_crashes_witness :
  render ["E"]
    [snapshot (PStr no_image_url) PNone (PStr "1999") (PInt 7) (PInt 136)] []
  = (Crashed,
     [UiColumns; UiImage (PStr no_image_url) 170; UiMarkdown (MdHeading "E");
      UiMarkdown (MdFacts (PStr "1999") (PInt 7) (PInt 136))]).
Proof.
  apply (render_unsliceable_overview_crashes "E" []
           (snapshot (PStr no_image_url) PNone (PStr "1999") (PInt 7)
              (PInt 136)) [] []
           (PStr no_image_url) (PStr "1999") (PInt 7) (PInt 136) PNone);
    reflexivity.
Defined.

(** ** The script as a whole *)

Lemma recommend_loop_details (api_key : option string)
    (movies_list : list Row)
    (upstream : list event → string → transport_result)
    (P : gmap string pyval → Prop) :
  (∀ movie w s w',
      fetch_movie_details api_key upstream movie w = (inr s, w') → P s) →
  ∀ recs ns ds w r w',
    Forall P ds →
    recommend_loop api_key movies_list upstream recs ns ds w = (inr r, w') →
    Forall P r.2.
Proof.
  intros Hfetch recs.
  induction recs as [|p recs IH]; intros ns ds w r w' Hds; simpl.
  - unfold ret. by intros [= <- _].
  - unfold bind at 1, of_option.
    destruct (movies_list !! p.1) as [row|]; [|done]. simpl.
    unfold bind at 1.
    destruct (fetch_movie_details _ _ _ _) as [[e|d] w1] eqn:Hd; [done|].
    apply IH, Forall_app. split; [done|].
    constructor; [|done]. by eapply Hfetch.
Qed.

Lemma recommend_details (api_key : option string) (movies_list : list Row)
    (similarity : list (list Q))
    (upstream : list event → string → transport_result)
    (P : gmap string pyval → Prop) (movie : string) (w : list event) :
  (∀ movie w s w',
      fetch_movie_details api_key upstream movie w = (inr s, w') → P s) →
  Forall P (recommend api_key movies_list similarity upstream movie w).1.2.
Proof.
  intros Hfetch. rewrite recommend_cases.
  destruct (list_find _ movies_list) as [[i row]|]; [|by constructor].
  destruct (similarity !! i) as [distances|]; [|by constructor].
  destruct (recommend_loop _ _ _ _ _ _ _) as [[e|r] w'] eqn:Hloop;
    [by constructor|].
  simpl. by eapply recommend_loop_details.
Qed.

Lemma recommend_selected_details (api_key : option string)
    (movies_list : list Row) (similarity : list (list Q))
    (upstream : list event → string → transport_result)
    (P : gmap string pyval → Prop) (sel : option string) (w : list event) :
  (∀ movie w s w',
      fetch_movie_details api_key upstream movie w = (inr s, w') → P s) →
  Forall P
    (recommend_selected api_key movies_list similarity upstream sel w).1.2.
Proof.
  intros Hfetch. destruct sel as [movie|]; simpl; [|by constructor].
  by apply recommend_details.
Qed.

Lemma show_recommendations_cases (api_key : option string)
    (movies_list : list Row) (similarity : list (list Q))
    (upstream : list event → string → transport_result)
    (sel : option string) (u : list ui_event) :
  show_recommendations api_key movies_list similarity upstream sel u =
    let r := recommend_selected api_key movies_list similarity upstream
               sel [] in
    let u' := (u ++ [UiSpinner "Finding similar movies..."])
                ++ (Core <$> r.2) in
    match r.1.1 with
    | [] => (Returned tt, u' ++ [UiError no_recommendation_text])
    | _ => render r.1.1 r.1.2 u'
    end.
Proof.
  unfold show_recommendations, ubind, emit.
  destruct (recommend_selected _ _ _ _ _ _) as [[names details] w]. simpl.
  by destruct names.
Qed.

Lemma script_running (s : Session)
    (upstream : list event → string → transport_result)
    (movies_list : list Row) (similarity : list (list Q))
    (u : list ui_event) :
  files s = inr (movies_list, similarity) →
  api_key_missing (resolve_api_key (secrets s) (environ s) (dotenv_file s))
    = false →
  script s upstream u =
    if button_pressed s then
      show_recommendations
        (resolve_api_key (secrets s) (environ s) (dotenv_file s))
        movies_list similarity upstream (selected_movie s)
        (u ++ [UiTitle "Movie Recommender System";
               UiSelectbox "Select a movie you like" (title <$> movies_list);
               UiButton "Show Recommendations"])
    else
      (Returned tt,
       u ++ [UiTitle "Movie Recommender System";
             UiSelectbox "Select a movie you like" (title <$> movies_list);
             UiButton "Show Recommendations"]).
Proof.
  intros Hfiles Hkey. unfold script, ubind at 1, emit at 1.
  rewrite Hfiles, Hkey. unfold ubind, emit, uret.
  rewrite <- !(assoc_L (++)). simpl. by destruct (button_pressed s).
Qed.

Lemma script_stopped (s : Session)
    (upstream : list event → string → transport_result)
    (u : list ui_event) :
  is_inl_or_keyless s = true →
  ∃ text, script s upstream u =
    (Stopped, u ++ [UiTitle "Movie Recommender System"; UiError text]).
Proof.
  unfold is_inl_or_keyless, script, ubind, emit, st_stop.
  destruct (files s) as [msg|[movies_list similarity]].
  - intros _. eexists. by rewrite <- (assoc_L (++)).
  - intros ->. eexists. by rewrite <- (assoc_L (++)).
Qed.


(** An empty entry in the secrets stops the script at start-up, whatever
    key the environment or the [.env] file holds: the title and the
    configuration error are all the page shows. *)
Theorem script_empty_secret_stops :
  ∀ (s : Session) (upstream : list event → string → transport_result)
    (u : list ui_event) (data : list Row * list (list Q)),
    files s = inr data →
    secrets s !! "TMDB_API_KEY" = Some "" →
    script s upstream u =
      (Stopped,
       u ++ [UiTitle "Movie Recommender System";
             UiError key_not_configured_text]).
Proof.
  intros s upstream u [movies_list similarity] Hfiles Hsecret.
  unfold script, ubind, emit, st_stop, resolve_api_key.
  rewrite Hfiles, Hsecret. simpl. by rewrite <- (assoc_L (++)).
Qed.

Lemma script_empty_secret_stops_witness :
  script {| files := inr (catalog6, matrix6);
            secrets := {[ "TMDB_API_KEY" := "" ]};
            environ := {[ "TMDB_API_KEY" := "k" ]};
            dotenv_file := ∅;
            selected_movie := Some "A";
            button_pressed := true |} (respond_with full_body) []
  = (Stopped,
     [UiTitle "Movie Recommender System"; UiError key_not_configured_text]).
Proof.
  apply (script_empty_secret_stops
           {| files := inr (catalog6, matrix6);
              secrets := {[ "TMDB_API_KEY" := "" ]};
              environ := {[ "TMDB_API_KEY" := "k" ]};
              dotenv_file := ∅;
              selected_movie := Some "A";
              button_pressed := true |} (respond_with full_body) []
           (catalog6, matrix6)); reflexivity.
Defined.















Lemma fetch_with_key_poster (api_key : option string)
    (upstream : list event → string → transport_result)
    (movie : Z) (w w' : list event) (s : gmap string pyval) :
  api_key_missing api_key = false →
  fetch_movie_details api_key upstream movie w = (inr s, w') →
  s !! "poster_path" ≠ Some (PStr no_api_key_url).
Proof.
  intros Hkey.
  destruct (upstream w (details_url api_key movie)) as [e|r] eqn:Hup.
  { erewrite fetch_raised by done. by intros [= <- _]. }
  destruct (http_error_status r) eqn:Hst.
  { erewrite fetch_http_error by done. by intros [= <- _]. }
  destruct (json_body r) as [data|] eqn:Hbody; last first.
  { erewrite fetch_not_json by done. by intros [= <- _]. }
  erewrite fetch_decoded by done. intros [= Hd _].
  apply details_of_data_inr_mapped in Hd as (d & -> & _ & ->).
  rewrite snapshot_poster. unfold mapped_poster.
  destruct (d !! "poster_path") as [[| | | |p| |]|]; try done.
  destruct (String.eqb p ""); [done|].
  unfold image_base, no_api_key_url. simpl. intros [=].
Qed.

(** Goes through a membership in an explicit list, closing the cases of
    elements that differ; what is left is membership in the unknown tail,
    or nothing. *)
Ltac not_listed H :=
  repeat (apply elem_of_cons in H as [H|H]; [done|]);
  try (by apply elem_of_nil in H).

(** Whatever the session and the service, the page never shows the
    "No+API+Key" placeholder: the script stops at start-up when no key is
    configured, so the first branch of [fetch_movie_details] is never
    taken from it. *)
Theorem script_never_shows_no_api_key_placeholder :
  ∀ (s : Session) (upstream : list event → string → transport_result)
    (width : Z),
    UiImage (PStr "https://via.placeholder.com/500x750?text=No+API+Key") width
      ∉ (script s upstream []).2.
Proof.
  intros s upstream width.
  change "https://via.placeholder.com/500x750?text=No+API+Key"
    with no_api_key_url.
  destruct (is_inl_or_keyless s) eqn:Hstop.
  { destruct (script_stopped s upstream [] Hstop) as [text ->].
    simpl. intros Hin. by not_listed Hin. }
  unfold is_inl_or_keyless in Hstop.
  destruct (files s) as [msg|[movies_list similarity]] eqn:Hfiles; [done|].
  rewrite (script_running s upstream movies_list similarity [] Hfiles Hstop).
  destruct (button_pressed s); [|simpl; intros Hin; by not_listed Hin].
  rewrite show_recommendations_cases.
  set (api_key := resolve_api_key _ _ _) in *.
  pose proof (recommend_selected_details api_key movies_list similarity
                upstream _ (selected_movie s) []
                (λ m w0 s0 w1, fetch_with_key_poster api_key upstream m w0
                                 w1 s0 Hstop)) as Hdetails.
  destruct (recommend_selected _ _ _ _ _ _) as [[names details] w].
  simpl in Hdetails |- *.
  assert (UiImage (PStr no_api_key_url) width ∉ (Core <$> w)) as Hcore.
  { intros (e & [=] & _)%list_elem_of_fmap. }
  destruct names as [|name names].
  - intros Hin. simpl in Hin. not_listed Hin.
    apply elem_of_app in Hin as [Hin|Hin]; [done|]. by not_listed Hin.
  - destruct (for_each_render_log (name :: names) details
                (seq 0 (length (name :: names)))
                ([UiTitle "Movie Recommender System";
                  UiSelectbox "Select a movie you like"
                    (title <$> movies_list);
                  UiButton "Show Recommendations";
                  UiSpinner "Finding similar movies..."] ++ (Core <$> w)))
      as (evs & Hlog & Hf).
    unfold render. simpl in Hlog |- *. rewrite Hlog.
    intros Hin. not_listed Hin.
    apply elem_of_app in Hin as [Hin|Hin]; [done|].
    rewrite Forall_forall in Hf. apply Hf in Hin as (d & Hd & Hposter).
    rewrite Forall_forall in Hdetails. by apply (Hdetails d Hd).
Qed.
